(** * tftblinky: the display backlight blinker

    A shallow embedding of [tftblinky.py] (class [TFTBlinky]) and the
    properties of its detection, switching, blinking and restoring code.

    The Python object and the hardware it drives are one explicit state:
    the fields of [self], the [board] module with the display and the
    digital lines behind it, and the trace of what the program printed,
    slept and wrote.  Methods are computations in a state-and-exception
    monad over that state. *)

From Stdlib Require Import Floats ZArith.
From stdpp Require Import gmap strings list fin_maps.

Local Open Scope Z_scope.

(** ** Python values and exceptions *)

(** The exception classes that matter to the program: the two its
    [except] clause names, and [ValueError], which [time.sleep] raises
    for a negative duration and [digitalio.DigitalInOut] for a pin that
    is already in use. *)
Inductive exn := AttributeError | TypeError | ValueError.

(** The objects found on the [board] module: [None], the built-in
    display, or a microcontroller pin (named by its line). *)
Inductive obj :=
| ONone
| ODisplay
| OPin (line : string).

(** Looking up an attribute of [board] yields an object or raises; a name
    that is not bound at all raises [AttributeError]. *)
Inductive attr :=
| Holds (o : obj)
| Fails (e : exn).

Inductive Direction := INPUT | OUTPUT.

(** A digital line: whether some [DigitalInOut] owns it, its direction
    and its logic level. *)
Record Line := mkLine {
  in_use : bool;
  direction : Direction;
  value : bool
}.

(** The ambient hardware: the attributes of the [board] module, the
    [brightness] attribute of the display object ([None] when the display
    has no such attribute) and the digital lines. *)
Record Hardware := mkHardware {
  board : gmap string attr;
  brightness : option float;
  lines : gmap string Line
}.

(** The fields of a [TFTBlinky] instance.  [backlight] is the
    [DigitalInOut] handle, identified by the line it owns;
    [original_state] is [None] while the attribute has not been set. *)
Record TFTBlinky := mkTFTBlinky {
  display : obj;
  backlight : option string;
  control_method : option string;
  original_brightness : option float;
  original_state : option bool
}.

(** ** The trace *)

(** The pieces of a printed line: literal text, and the float or bool an
    f-string interpolates. *)
Inductive fragment :=
| Text (s : string)
| Num (x : float)
| Flag (b : bool).

(** What the program does to the outside world, in order.  [RestoreCalled]
    marks entry into [restore_original_state], so that whether the method
    was invoked can be read off the trace. *)
Inductive event :=
| Print (line : list fragment)
| Sleep (seconds : float)
| BrightnessWrite (level : float)
| ValueWrite (line : string) (level : bool)
| RestoreCalled.

Record State := mkState {
  self : TFTBlinky;
  hw : Hardware;
  out : list event
}.

(** ** The monad: state with exceptions *)

Inductive result (A : Type) :=
| Ok (a : A) (s : State)
| Raise (e : exn) (s : State).
Arguments Ok {A} a s.
Arguments Raise {A} e s.

Definition M (A : Type) : Type := State → result A.

#[global] Instance M_ret : MRet M := λ A a s, Ok a s.
#[global] Instance M_bind : MBind M := λ A B f m s,
  match m s with
  | Ok a s' => f a s'
  | Raise e s' => Raise e s'
  end.

Definition state_of {A} (r : result A) : State :=
  match r with Ok _ s => s | Raise _ s => s end.

Definition raise {A} (e : exn) : M A := λ s, Raise e s.

(** [except (AttributeError, TypeError):] *)
Definition caught (e : exn) : bool :=
  match e with
  | AttributeError | TypeError => true
  | ValueError => false
  end.

Definition try_except {A} (body handler : M A) : M A := λ s,
  match body s with
  | Ok a s' => Ok a s'
  | Raise e s' => if caught e then handler s' else Raise e s'
  end.

Definition get_self : M TFTBlinky := λ s, Ok (self s) s.
Definition get_hw : M Hardware := λ s, Ok (hw s) s.
Definition put_self (c : TFTBlinky) : M unit := λ s, Ok tt (mkState c (hw s) (out s)).
Definition put_hw (h : Hardware) : M unit := λ s, Ok tt (mkState (self s) h (out s)).
Definition emit (e : event) : M unit := λ s, Ok tt (mkState (self s) (hw s) (out s ++ [e])).

Definition print (line : list fragment) : M unit := emit (Print line).

(** [time.sleep]: a negative duration raises [ValueError]. *)
Definition sleep (seconds : float) : M unit :=
  if (seconds <? 0)%float then raise ValueError else emit (Sleep seconds).

(** ** Field assignments on [self] *)

Definition set_display (o : obj) : M unit :=
  c ← get_self;
  put_self (mkTFTBlinky o (backlight c) (control_method c) (original_brightness c) (original_state c)).
Definition set_backlight_field (io : option string) : M unit :=
  c ← get_self;
  put_self (mkTFTBlinky (display c) io (control_method c) (original_brightness c) (original_state c)).
Definition set_control_method (m : option string) : M unit :=
  c ← get_self;
  put_self (mkTFTBlinky (display c) (backlight c) m (original_brightness c) (original_state c)).
Definition set_original_brightness (b : option float) : M unit :=
  c ← get_self;
  put_self (mkTFTBlinky (display c) (backlight c) (control_method c) b (original_state c)).
Definition set_original_state (v : option bool) : M unit :=
  c ← get_self;
  put_self (mkTFTBlinky (display c) (backlight c) (control_method c) (original_brightness c) v).

(** ** The hardware interface *)

(** [getattr(board, name)] *)
Definition lookup_attr (h : Hardware) (name : string) : attr :=
  match board h !! name with
  | Some a => a
  | None => Fails AttributeError
  end.

Definition getattr_board (name : string) : M obj :=
  h ← get_hw;
  match lookup_attr h name with
  | Holds o => mret o
  | Fails e => raise e
  end.

(** [hasattr(board, name)]: false on [AttributeError]; any other
    exception of the lookup propagates. *)
Definition hasattr_board (name : string) : M bool :=
  h ← get_hw;
  match lookup_attr h name with
  | Holds _ => mret true
  | Fails AttributeError => mret false
  | Fails e => raise e
  end.

(** [hasattr(o, 'brightness')] *)
Definition has_brightness (h : Hardware) (o : obj) : bool :=
  match o, brightness h with
  | ODisplay, Some _ => true
  | _, _ => false
  end.

Definition hasattr_brightness (o : obj) : M bool :=
  h ← get_hw;
  mret (has_brightness h o).

(** [o.brightness] *)
Definition get_brightness (o : obj) : M float :=
  h ← get_hw;
  match o, brightness h with
  | ODisplay, Some v => mret v
  | _, _ => raise AttributeError
  end.

(** [o.brightness = v] *)
Definition write_brightness (o : obj) (v : float) : M unit :=
  h ← get_hw;
  match o, brightness h with
  | ODisplay, Some _ =>
      put_hw (mkHardware (board h) (Some v) (lines h));;
      emit (BrightnessWrite v)
  | _, _ => raise AttributeError
  end.

(** A line nobody configured yet is a free input at low level. *)
Definition line_of (h : Hardware) (l : string) : Line :=
  default (mkLine false INPUT false) (lines h !! l).

Definition put_line (l : string) (st : Line) : M unit :=
  h ← get_hw;
  put_hw (mkHardware (board h) (brightness h) (<[l := st]> (lines h))).

(** [DigitalInOut(o)]: [TypeError] unless [o] is a pin, [ValueError] when
    the pin is in use; otherwise the new object owns the line. *)
Definition DigitalInOut (o : obj) : M string :=
  match o with
  | OPin l =>
      h ← get_hw;
      let st := line_of h l in
      if in_use st then raise ValueError
      else put_line l (mkLine true (direction st) (value st));; mret l
  | _ => raise TypeError
  end.

(** [io.direction = d], [io.value] and [io.value = b], on the object a
    field of [self] holds; on [None] the attribute access raises.
    Setting the direction to output uses the defaults of
    [switch_to_output], which drive the line low; setting the value of an
    input raises [AttributeError]. *)
Definition write_direction (io : option string) (d : Direction) : M unit :=
  match io with
  | Some l =>
      h ← get_hw;
      let st := line_of h l in
      put_line l (mkLine (in_use st) d
                    (match d with OUTPUT => false | INPUT => value st end))
  | None => raise AttributeError
  end.

Definition get_value (io : option string) : M bool :=
  match io with
  | Some l => h ← get_hw; mret (value (line_of h l))
  | None => raise AttributeError
  end.

Definition write_value (io : option string) (b : bool) : M unit :=
  match io with
  | Some l =>
      h ← get_hw;
      let st := line_of h l in
      match direction st with
      | OUTPUT =>
          put_line l (mkLine (in_use st) OUTPUT b);;
          emit (ValueWrite l b)
      | INPUT => raise AttributeError
      end
  | None => raise AttributeError
  end.

(** ** The class *)

(** Truth value of [self.control_method]: [None] and the empty string
    are false. *)
Definition truthy (m : option string) : bool :=
  match m with
  | None => false
  | Some s => negb (String.eqb s "")
  end.

(** [self.control_method == name] *)
Definition method_is (m : option string) (name : string) : bool :=
  match m with
  | None => false
  | Some s => String.eqb s name
  end.

Definition backlight_pins : list string :=
  ["DISPLAY_BACKLIGHT"; "TFT_BACKLIGHT"; "BACKLIGHT"].

(** [for pin_name in backlight_pins: ...], leaving at the first name the
    board has ([break]). *)
Fixpoint probe_pins (names : list string) : M unit :=
  match names with
  | [] => mret tt
  | pin_name :: rest =>
      found ← hasattr_board pin_name;
      if found : bool then
        pin ← getattr_board pin_name;
        io ← DigitalInOut pin;
        set_backlight_field (Some io);;
        c ← get_self;
        write_direction (backlight c) OUTPUT;;
        set_control_method (Some "pin");;
        c ← get_self;
        v ← get_value (backlight c);
        set_original_state (Some v);;
        print [Text ("Using " +:+ pin_name +:+ " pin for backlight control")]
      else probe_pins rest
  end.

(** The body of the [try] statement of the constructor. *)
Definition detect : M unit :=
  d ← getattr_board "DISPLAY";
  set_display d;;
  c ← get_self;
  bright ← hasattr_brightness (display c);
  if bright : bool then
    set_control_method (Some "brightness");;
    c ← get_self;
    b ← get_brightness (display c);
    set_original_brightness (Some b);;
    print [Text "Using display brightness control"]
  else
    probe_pins backlight_pins;;
    c ← get_self;
    if negb (truthy (control_method c)) then
      print [Text "Could not find backlight control method. Please check your board documentation."]
    else mret tt.

(** [TFTBlinky.__init__] *)
Definition __init__ : M unit :=
  put_self (mkTFTBlinky ONone None None None None);;
  try_except detect (print [Text "No built-in display detected."]).

(** [TFTBlinky.set_backlight] *)
Definition set_backlight (state : bool) : M bool :=
  c ← get_self;
  (if method_is (control_method c) "brightness" then
     write_brightness (display c) (if state then 1 else 0)%float
   else if method_is (control_method c) "pin" then
     write_value (backlight c) state
   else mret tt);;
  mret state.

(** [TFTBlinky.restore_original_state] *)
Definition restore_original_state : M unit :=
  emit RestoreCalled;;
  c ← get_self;
  match method_is (control_method c) "brightness", original_brightness c with
  | true, Some b =>
      write_brightness (display c) b;;
      print [Text "Restored original brightness: "; Num b]
  | _, _ =>
      match method_is (control_method c) "pin", original_state c with
      | true, Some v =>
          write_value (backlight c) v;;
          print [Text "Restored original backlight state: "; Flag v]
      | _, _ => mret tt
      end
  end.

(** [for i in range(count): ...], over the length of the range. *)
Fixpoint blink_loop (n : nat) (on_time off_time : float) : M unit :=
  match n with
  | O => mret tt
  | S k =>
      set_backlight true;;
      sleep on_time;;
      set_backlight false;;
      sleep off_time;;
      blink_loop k on_time off_time
  end.

(** [TFTBlinky.blink] *)
Definition blink (count : Z) (on_time off_time : float) : M unit :=
  c ← get_self;
  if negb (truthy (control_method c)) then
    print [Text "No backlight control method available"]
  else
    blink_loop (Z.to_nat count) on_time off_time;;
    restore_original_state.

(** The script under [if __name__ == "__main__":]. *)
Definition main : M unit :=
  __init__;;
  blink 5 0.5 0.5;;
  print [Text "Blinking complete, display restored to original state"].

(** ** Vocabulary of the statements *)

(** The fields of a controller before detection. *)
Definition fresh : TFTBlinky := mkTFTBlinky ONone None None None None.

(** The invariant of the data model: the handle the control method acts
    through is there.  Under ["brightness"] the display is the built-in
    display and has a brightness attribute; under ["pin"] the
    [DigitalInOut] object exists and its line is an output. *)
Definition valid (s : State) : Prop :=
  (control_method (self s) = Some "brightness" →
     display (self s) = ODisplay ∧ is_Some (brightness (hw s))) ∧
  (control_method (self s) = Some "pin" →
     ∃ l, backlight (self s) = Some l ∧ direction (line_of (hw s) l) = OUTPUT).

(** A duration [time.sleep] accepts. *)
Definition accepted (t : float) : Prop := (t <? 0)%float = false.

(** The state after the display brightness was set to [v], with [evs]
    added to the trace. *)
Definition lit (s : State) (v : float) (evs : list event) : State :=
  mkState (self s) (mkHardware (board (hw s)) (Some v) (lines (hw s))) (out s ++ evs).

(** The state after line [l] was driven to level [b], with [evs] added to
    the trace. *)
Definition driven (s : State) (l : string) (b : bool) (evs : list event) : State :=
  let st := line_of (hw s) l in
  mkState (self s)
    (mkHardware (board (hw s)) (brightness (hw s))
       (<[l := mkLine (in_use st) OUTPUT b]> (lines (hw s))))
    (out s ++ evs).

(** What one round of the loop adds to the trace, by control method. *)
Definition brightness_round (on_time off_time : float) : list event :=
  [BrightnessWrite 1; Sleep on_time; BrightnessWrite 0; Sleep off_time].

Definition pin_round (l : string) (on_time off_time : float) : list event :=
  [ValueWrite l true; Sleep on_time; ValueWrite l false; Sleep off_time].

Fixpoint rounds (n : nat) (round : list event) : list event :=
  match n with
  | O => []
  | S k => round ++ rounds k round
  end.

(** The levels written to digital lines, in order. *)
Fixpoint pin_writes (evs : list event) : list bool :=
  match evs with
  | [] => []
  | ValueWrite _ b :: rest => b :: pin_writes rest
  | _ :: rest => pin_writes rest
  end.

Definition is_sleep (e : event) : bool :=
  match e with Sleep _ => true | _ => false end.

(** The two diagnostics of a construction that found nothing to drive. *)
Definition no_display_msg : string := "No built-in display detected.".
Definition no_method_msg : string :=
  "Could not find backlight control method. Please check your board documentation.".

(** The hardware raises nothing the constructor does not absorb: no
    probed attribute of [board] fails with [ValueError], and no candidate
    pin is already in use. *)
Definition absorbable (h : Hardware) : Prop :=
  (∀ n, n ∈ "DISPLAY" :: backlight_pins → lookup_attr h n ≠ Fails ValueError) ∧
  (∀ n l, n ∈ backlight_pins → lookup_attr h n = Holds (OPin l) →
          in_use (line_of h l) = false).

(** The first candidate name whose lookup does not raise
    [AttributeError], with what the lookup gives. *)
Fixpoint first_present (h : Hardware) (names : list string) : option (string * attr) :=
  match names with
  | [] => None
  | n :: rest =>
      match lookup_attr h n with
      | Fails AttributeError => first_present h rest
      | a => Some (n, a)
      end
  end.

(** The state of a constructor that found the display object [d] and
    nothing else yet. *)
Definition found (s : State) (d : obj) : State :=
  mkState (mkTFTBlinky d None None None None) (hw s) (out s).

(** The state after the probing loop took the free line [l] that the
    candidate [name] holds: the line is owned, an output and low, and low
    is the level captured. *)
Definition claimed (s : State) (name l : string) : State :=
  mkState
    (mkTFTBlinky (display (self s)) (Some l) (Some "pin")
       (original_brightness (self s)) (Some false))
    (mkHardware (board (hw s)) (brightness (hw s))
       (<[l := mkLine true OUTPUT false]> (lines (hw s))))
    (out s ++ [Print [Text ("Using " +:+ name +:+ " pin for backlight control")]]).

(** The state in which the constructor leaves a board whose display
    object [d] has no brightness control and whose candidate [name] holds
    the free line [l]: the controller is under ["pin"], owns the line,
    now an output, and has captured its level. *)
Definition pin_selected (s : State) (d : obj) (name l : string) : State :=
  claimed (found s d) name l.

(** ** Concrete boards *)

(** A board whose display has no brightness control and whose only
    candidate is [BACKLIGHT]. *)
Definition board_only_BACKLIGHT : Hardware :=
  mkHardware
    (<["BACKLIGHT" := Holds (OPin "GPIO45")]> (<["DISPLAY" := Holds ONone]> ∅))
    None ∅.

(** The same board after some other code took the backlight line. *)
Definition board_line_taken : Hardware :=
  mkHardware
    (<["BACKLIGHT" := Holds (OPin "GPIO45")]> (<["DISPLAY" := Holds ONone]> ∅))
    None (<["GPIO45" := mkLine true OUTPUT true]> ∅).

(** A board whose display has brightness control, at level 0.75. *)
Definition board_with_brightness : Hardware :=
  mkHardware (<["DISPLAY" := Holds ODisplay]> ∅) (Some 0.75%float) ∅.

(** A board without display. *)
Definition board_bare : Hardware := mkHardware ∅ None ∅.

Definition boot (h : Hardware) : State := mkState fresh h [].

(** The controllers the constructor builds on these boards. *)
Definition brightness_controller : State :=
  state_of (__init__ (boot board_with_brightness)).

Definition pin_controller : State :=
  state_of (__init__ (boot board_only_BACKLIGHT)).

Definition inert_controller : State :=
  state_of (__init__ (boot board_bare)).

(** ** Further vocabulary: traces, frames and boards *)

(** The durations slept, in order. *)
Fixpoint sleeps (evs : list event) : list float :=
  match evs with
  | [] => []
  | Sleep t :: rest => t :: sleeps rest
  | _ :: rest => sleeps rest
  end.

(** The levels written to the display brightness, in order. *)
Fixpoint brightness_writes (evs : list event) : list float :=
  match evs with
  | [] => []
  | BrightnessWrite v :: rest => v :: brightness_writes rest
  | _ :: rest => brightness_writes rest
  end.

(** [n] times [a; b]. *)
Fixpoint alternate {A} (n : nat) (a b : A) : list A :=
  match n with
  | O => []
  | S k => a :: b :: alternate k a b
  end.

(** What a method may change between [s] and [s']: no field of [self]
    and nothing of [board]; the display's brightness only under
    ["brightness"], and never whether the attribute exists; of the lines
    only the level of the one [self.backlight] owns, and only under
    ["pin"]. *)
Definition frame (s s' : State) : Prop :=
  self s' = self s ∧
  board (hw s') = board (hw s) ∧
  (is_Some (brightness (hw s')) ↔ is_Some (brightness (hw s))) ∧
  (control_method (self s) ≠ Some "brightness" →
     brightness (hw s') = brightness (hw s)) ∧
  (∀ l, in_use (line_of (hw s') l) = in_use (line_of (hw s) l) ∧
        direction (line_of (hw s') l) = direction (line_of (hw s) l)) ∧
  (∀ l, control_method (self s) ≠ Some "pin" ∨ backlight (self s) ≠ Some l →
        line_of (hw s') l = line_of (hw s) l).

(** A board whose display has brightness control and which also has a
    [BACKLIGHT] pin. *)
Definition board_brightness_and_pin : Hardware :=
  mkHardware
    (<["BACKLIGHT" := Holds (OPin "GPIO45")]> (<["DISPLAY" := Holds ODisplay]> ∅))
    (Some 0.75%float) ∅.

(** A board on which [DISPLAY_BACKLIGHT] is bound to [None] and
    [BACKLIGHT] to a pin. *)
Definition board_odd_candidate : Hardware :=
  mkHardware
    (<["BACKLIGHT" := Holds (OPin "GPIO45")]>
       (<["DISPLAY_BACKLIGHT" := Holds ONone]> (<["DISPLAY" := Holds ONone]> ∅)))
    None ∅.

(** A board with a display object without brightness control and no
    candidate pin. *)
Definition board_no_candidate : Hardware :=
  mkHardware (<["DISPLAY" := Holds ONone]> ∅) None ∅.

(** ** The monad's equations *)

(** Run the primitive operations of the monad in the goal. *)
Ltac run :=
  unfold set_display, set_backlight_field, set_control_method,
    set_original_brightness, set_original_state,
    write_brightness, write_value, write_direction, get_value,
    get_brightness, hasattr_brightness, print, emit, put_line, put_hw,
    put_self, get_hw, get_self, raise, mret, M_ret, mbind, M_bind;
  cbn.

Lemma bind_Ok {A B} (m : M A) (f : A → M B) s a s' :
  m s = Ok a s' → (m ≫= f) s = f a s'.
Proof. intros H. unfold mbind, M_bind. now rewrite H. Qed.

Lemma lit_lit s v evs v' evs' : lit (lit s v evs) v' evs' = lit s v' (evs ++ evs').
Proof. unfold lit. cbn. now rewrite app_assoc. Qed.

Lemma line_of_driven s l b evs :
  line_of (hw (driven s l b evs)) l = mkLine (in_use (line_of (hw s) l)) OUTPUT b.
Proof. unfold driven, line_of. cbn. now rewrite lookup_insert_eq. Qed.

Lemma direction_driven s l b evs :
  direction (line_of (hw (driven s l b evs)) l) = OUTPUT.
Proof. now rewrite line_of_driven. Qed.

Lemma driven_driven s l b evs b' evs' :
  driven (driven s l b evs) l b' evs' = driven s l b' (evs ++ evs').
Proof.
  unfold driven at 1. rewrite line_of_driven. unfold driven. cbn.
  now rewrite insert_insert_eq, app_assoc.
Qed.

Lemma positive_accepted t : (0 <? t)%float = true → accepted t.
Proof.
  unfold accepted. rewrite !ltb_spec.
  change (Prim2SF 0) with (S754_zero false).
  destruct (Prim2SF t) as [sg|sg| |sg m e]; try destruct sg; cbn; congruence.
Qed.

Lemma sleep_accepted t s : accepted t → sleep t s = Ok tt (mkState (self s) (hw s) (out s ++ [Sleep t])).
Proof. unfold accepted, sleep. intros ->. reflexivity. Qed.

(** ** [set_backlight] *)

Lemma set_backlight_brightness s state v0 :
  control_method (self s) = Some "brightness" →
  display (self s) = ODisplay →
  brightness (hw s) = Some v0 →
  set_backlight state s =
  Ok state (lit s (if state then 1 else 0)%float
                  [BrightnessWrite (if state then 1 else 0)%float]).
Proof.
  intros Hm Hd Hb. unfold set_backlight, write_brightness, mbind, M_bind.
  cbn. rewrite Hm. cbn. rewrite Hd, Hb. reflexivity.
Qed.

Lemma set_backlight_pin s state l :
  control_method (self s) = Some "pin" →
  backlight (self s) = Some l →
  direction (line_of (hw s) l) = OUTPUT →
  set_backlight state s = Ok state (driven s l state [ValueWrite l state]).
Proof.
  intros Hm Hl Hd. unfold set_backlight, write_value, mbind, M_bind.
  cbn. rewrite Hm. cbn. rewrite Hl. cbn. rewrite Hd. reflexivity.
Qed.

(** ** [restore_original_state] *)

Lemma restore_brightness s b v0 :
  control_method (self s) = Some "brightness" →
  original_brightness (self s) = Some b →
  display (self s) = ODisplay →
  brightness (hw s) = Some v0 →
  restore_original_state s =
  Ok tt (lit s b [RestoreCalled; BrightnessWrite b;
                  Print [Text "Restored original brightness: "; Num b]]).
Proof.
  intros Hm Ho Hd Hb.
  unfold restore_original_state. run.
  rewrite Hm, Ho. cbn. rewrite Hd, Hb. cbn.
  unfold lit. cbn. now rewrite <- !app_assoc.
Qed.

Lemma restore_pin s l v :
  control_method (self s) = Some "pin" →
  original_state (self s) = Some v →
  backlight (self s) = Some l →
  direction (line_of (hw s) l) = OUTPUT →
  restore_original_state s =
  Ok tt (driven s l v [RestoreCalled; ValueWrite l v;
                       Print [Text "Restored original backlight state: "; Flag v]]).
Proof.
  intros Hm Ho Hl Hd.
  unfold restore_original_state. run.
  rewrite Hm, Ho. cbn. rewrite Hl. cbn. rewrite Hd. cbn.
  unfold driven. cbn. now rewrite <- !app_assoc.
Qed.

Lemma method_is_eq m name : method_is m name = true → m = Some name.
Proof.
  destruct m as [x|]; cbn; [|discriminate].
  intros H. apply String.eqb_eq in H. now subst.
Qed.

(** Whatever the state, the first thing a call adds to the trace is its
    marker. *)
Lemma restore_marks s :
  ∃ evs, out (state_of (restore_original_state s)) = out s ++ RestoreCalled :: evs.
Proof.
  unfold restore_original_state. run.
  repeat case_match; simplify_eq; cbn; rewrite <- ?app_assoc; cbn; eauto.
Qed.

(** On a valid controller the call returns, and adds no sleep. *)
Lemma restore_returns s :
  valid s →
  ∃ s' evs, restore_original_state s = Ok tt s' ∧
            out s' = out s ++ RestoreCalled :: evs ∧
            ∀ e, e ∈ evs → is_sleep e = false.
Proof.
  intros [Hb Hp].
  assert (Hnone : ∀ r : result unit,
    r = Ok tt (mkState (self s) (hw s) (out s ++ [RestoreCalled])) →
    ∃ s' evs, r = Ok tt s' ∧ out s' = out s ++ RestoreCalled :: evs ∧
              ∀ e, e ∈ evs → is_sleep e = false).
  { intros r ->. eexists _, []. repeat split. intros e He. inversion He. }
  destruct (method_is (control_method (self s)) "brightness") eqn:Eb.
  - pose proof (method_is_eq _ _ Eb) as Hm. destruct (Hb Hm) as [Hd [v0 Hv]].
    destruct (original_brightness (self s)) as [b|] eqn:Eo.
    + eexists _, _. split; [eapply restore_brightness; eauto|].
      split; [reflexivity|]. intros e He.
      apply elem_of_cons in He as [->|He]; [reflexivity|].
      apply list_elem_of_singleton in He as ->. reflexivity.
    + apply Hnone. unfold restore_original_state. run.
      rewrite Hm, Eo. reflexivity.
  - destruct (method_is (control_method (self s)) "pin") eqn:Ep.
    + pose proof (method_is_eq _ _ Ep) as Hm. destruct (Hp Hm) as (l & Hl & Hdir).
      destruct (original_state (self s)) as [v|] eqn:Eo.
      * eexists _, _. split; [eapply restore_pin; eauto|].
        split; [reflexivity|]. intros e He.
        apply elem_of_cons in He as [->|He]; [reflexivity|].
        apply list_elem_of_singleton in He as ->. reflexivity.
      * apply Hnone. unfold restore_original_state. run.
        rewrite Hm, Eo. cbn. repeat case_match; reflexivity.
    + apply Hnone. unfold restore_original_state. run.
      rewrite Eb, Ep. cbn. repeat case_match; reflexivity.
Qed.

(** ** The loop of [blink] *)

Section Rounds.
Variables on_time off_time : float.
Hypothesis on_ok : accepted on_time.
Hypothesis off_ok : accepted off_time.

(** One round under brightness control: on, wait, off, wait. *)
Lemma brightness_round_run s v0 k :
  control_method (self s) = Some "brightness" →
  display (self s) = ODisplay →
  brightness (hw s) = Some v0 →
  blink_loop (S k) on_time off_time s =
  blink_loop k on_time off_time (lit s 0 (brightness_round on_time off_time)).
Proof.
  intros Hm Hd Hb. cbn [blink_loop].
  erewrite bind_Ok by (eapply set_backlight_brightness; eauto).
  erewrite bind_Ok by (apply sleep_accepted, on_ok).
  erewrite bind_Ok by (eapply set_backlight_brightness; cbn; eauto).
  erewrite bind_Ok by (apply sleep_accepted, off_ok).
  f_equal. unfold lit. cbn. now rewrite <- !app_assoc.
Qed.

Lemma blink_loop_brightness n s v0 :
  control_method (self s) = Some "brightness" →
  display (self s) = ODisplay →
  brightness (hw s) = Some v0 →
  blink_loop n on_time off_time s =
  Ok tt (lit s (match n with O => v0 | S _ => 0%float end)
               (rounds n (brightness_round on_time off_time))).
Proof.
  revert s v0. induction n as [|k IH]; intros s v0 Hm Hd Hb.
  - cbn. unfold mret, M_ret, lit. rewrite app_nil_r, <- Hb.
    now destruct s as [c [bd br ls] o].
  - erewrite brightness_round_run by eauto.
    erewrite IH by (cbn; eauto). rewrite lit_lit.
    now destruct k.
Qed.

(** One round under pin control. *)
Lemma pin_round_run s l k :
  control_method (self s) = Some "pin" →
  backlight (self s) = Some l →
  direction (line_of (hw s) l) = OUTPUT →
  blink_loop (S k) on_time off_time s =
  blink_loop k on_time off_time (driven s l false (pin_round l on_time off_time)).
Proof.
  intros Hm Hl Hd. cbn [blink_loop].
  erewrite bind_Ok by (eapply set_backlight_pin; eauto).
  erewrite bind_Ok by (apply sleep_accepted, on_ok).
  erewrite bind_Ok
    by (eapply set_backlight_pin; cbn [self hw]; eauto using direction_driven).
  erewrite bind_Ok by (apply sleep_accepted, off_ok).
  f_equal. unfold driven, line_of. cbn. rewrite lookup_insert_eq. cbn.
  now rewrite insert_insert_eq, <- !app_assoc.
Qed.

Lemma blink_loop_pin n s l :
  control_method (self s) = Some "pin" →
  backlight (self s) = Some l →
  direction (line_of (hw s) l) = OUTPUT →
  blink_loop (S n) on_time off_time s =
  Ok tt (driven s l false (rounds (S n) (pin_round l on_time off_time))).
Proof.
  revert s. induction n as [|k IH]; intros s Hm Hl Hd.
  - erewrite pin_round_run by eauto. cbn [blink_loop rounds].
    now rewrite app_nil_r.
  - erewrite pin_round_run by eauto.
    erewrite IH by (cbn [self]; eauto using direction_driven).
    now rewrite driven_driven.
Qed.
End Rounds.

(** ** The concrete controllers *)

Lemma brightness_controller_self :
  self brightness_controller =
  mkTFTBlinky ODisplay None (Some "brightness") (Some 0.75%float) None.
Proof. vm_compute. reflexivity. Qed.

Lemma pin_controller_self :
  self pin_controller =
  mkTFTBlinky ONone (Some "GPIO45") (Some "pin") None (Some false).
Proof. vm_compute. reflexivity. Qed.

Lemma inert_controller_self : self inert_controller = fresh.
Proof. vm_compute. reflexivity. Qed.

Lemma brightness_controller_valid : valid brightness_controller.
Proof.
  split; rewrite brightness_controller_self; cbn; [|discriminate].
  intros _. split; [reflexivity|]. exists 0.75%float. vm_compute. reflexivity.
Qed.

Lemma pin_controller_valid : valid pin_controller.
Proof.
  split; rewrite pin_controller_self; cbn; [discriminate|].
  intros _. exists "GPIO45". split; [reflexivity|]. vm_compute. reflexivity.
Qed.

(** ** Properties of [set_backlight] *)

(** C3. On a valid controller with an active control method,
    [set_backlight] applies its argument through that method: under
    ["brightness"] the call returns and the display's brightness then
    reads 1.0 for [True] and 0.0 for [False]; under ["pin"] the call
    returns and the handle's value then reads exactly the argument. *)
Theorem set_backlight_applies s state :
  valid s →
  (control_method (self s) = Some "brightness" →
   ∃ s', set_backlight state s = Ok state s' ∧
         get_brightness (display (self s')) s' =
         Ok (if state then 1 else 0)%float s') ∧
  (control_method (self s) = Some "pin" →
   ∃ s', set_backlight state s = Ok state s' ∧
         get_value (backlight (self s')) s' = Ok state s').
Proof.
  intros [Hb Hp]. split; intros Hm.
  - destruct (Hb Hm) as [Hd [v0 Hv]].
    eexists. split; [eapply set_backlight_brightness; eauto|].
    run. now rewrite Hd.
  - destruct (Hp Hm) as (l & Hl & Hdir).
    eexists. split; [eapply set_backlight_pin; eauto|].
    run. rewrite Hl. run. unfold line_of. cbn. now rewrite lookup_insert_eq.
Qed.

Lemma set_backlight_applies_witness :
  (∃ s', set_backlight true brightness_controller = Ok true s' ∧
         get_brightness (display (self s')) s' = Ok 1%float s') ∧
  (∃ s', set_backlight true pin_controller = Ok true s' ∧
         get_value (backlight (self s')) s' = Ok true s').
Proof.
  split.
  - apply (set_backlight_applies brightness_controller true
             brightness_controller_valid).
    vm_compute. reflexivity.
  - apply (set_backlight_applies pin_controller true pin_controller_valid).
    vm_compute. reflexivity.
Defined.

(** C4. On a controller without control method, [set_backlight] returns
    its argument and leaves the whole state as it was: no field of the
    controller, nothing of the hardware, nothing added to the trace, no
    exception. *)
Theorem set_backlight_inert s state :
  control_method (self s) = None → set_backlight state s = Ok state s.
Proof. intros Hm. unfold set_backlight. run. now rewrite Hm. Qed.

Lemma set_backlight_inert_witness :
  set_backlight true inert_controller = Ok true inert_controller.
Proof.
  apply (set_backlight_inert inert_controller true).
  vm_compute. reflexivity.
Defined.

(** ** Properties of [blink] *)

(** C2. On a controller without control method, [blink] returns at once,
    whatever the count and the durations: one diagnostic line is added to
    the trace and nothing else, so no write, no sleep and no call of
    [restore_original_state]; controller and hardware are unchanged. *)
Theorem blink_inert s count on_time off_time :
  control_method (self s) = None →
  blink count on_time off_time s =
  Ok tt (mkState (self s) (hw s)
           (out s ++ [Print [Text "No backlight control method available"]])).
Proof. intros Hm. unfold blink. run. now rewrite Hm. Qed.

Lemma blink_inert_witness :
  blink 5 0.5 0.5 inert_controller =
  Ok tt (mkState (self inert_controller) (hw inert_controller)
           (out inert_controller ++
            [Print [Text "No backlight control method available"]])).
Proof.
  apply (blink_inert inert_controller 5 0.5 0.5).
  vm_compute. reflexivity.
Defined.

Lemma blink_active s count on_time off_time :
  control_method (self s) = Some "brightness" ∨
  control_method (self s) = Some "pin" →
  blink count on_time off_time s =
  (blink_loop (Z.to_nat count) on_time off_time;; restore_original_state) s.
Proof.
  intros Hm. unfold blink. unfold get_self at 1. unfold mbind at 1, M_bind at 1.
  now destruct Hm as [-> | ->].
Qed.

(** Under brightness control [blink] runs its rounds and restores: the
    exact final state. *)
Lemma blink_brightness s b0 v0 count on_time off_time :
  control_method (self s) = Some "brightness" →
  original_brightness (self s) = Some b0 →
  display (self s) = ODisplay →
  brightness (hw s) = Some v0 →
  accepted on_time →
  accepted off_time →
  blink count on_time off_time s =
  Ok tt (lit s b0
           (rounds (Z.to_nat count) (brightness_round on_time off_time) ++
            [RestoreCalled; BrightnessWrite b0;
             Print [Text "Restored original brightness: "; Num b0]])).
Proof.
  intros Hm Ho Hd Hv Hon Hoff.
  rewrite blink_active by auto.
  erewrite bind_Ok by (eapply blink_loop_brightness; eauto).
  erewrite restore_brightness by (cbn; eauto).
  now rewrite lit_lit.
Qed.

(** C1. On a valid controller under ["brightness"] that captured the
    original brightness [b0], [blink] returns for every count (also a
    negative one) and all positive durations, and the display's brightness
    then reads exactly [b0]. *)
Theorem blink_restores_brightness s b0 count on_time off_time :
  valid s →
  control_method (self s) = Some "brightness" →
  original_brightness (self s) = Some b0 →
  (0 <? on_time)%float = true →
  (0 <? off_time)%float = true →
  ∃ s', blink count on_time off_time s = Ok tt s' ∧
        get_brightness (display (self s')) s' = Ok b0 s'.
Proof.
  intros [Hb _] Hm Ho Hon Hoff. destruct (Hb Hm) as [Hd [v0 Hv]].
  apply positive_accepted in Hon, Hoff.
  eexists. split; [eapply blink_brightness; eauto|].
  run. now rewrite Hd.
Qed.

Lemma blink_restores_brightness_witness :
  ∃ s', blink 3 0.5 0.25 brightness_controller = Ok tt s' ∧
        get_brightness (display (self s')) s' = Ok 0.75%float s'.
Proof.
  apply (blink_restores_brightness brightness_controller 0.75 3 0.5 0.25
           brightness_controller_valid); vm_compute; reflexivity.
Defined.

(** C5. On a controller with an active control method, [blink] with count
    0 does what a call of [restore_original_state] does and nothing else:
    the first thing it adds to the trace is the marker of that call, so
    no on/off write precedes it. *)
Theorem blink_zero_restores s on_time off_time :
  control_method (self s) = Some "brightness" ∨
  control_method (self s) = Some "pin" →
  blink 0 on_time off_time s = restore_original_state s ∧
  ∃ evs, out (state_of (blink 0 on_time off_time s)) =
         out s ++ RestoreCalled :: evs.
Proof.
  intros Hm.
  assert (H : blink 0 on_time off_time s = restore_original_state s).
  { rewrite blink_active by assumption. reflexivity. }
  split; [exact H|]. rewrite H. apply restore_marks.
Qed.

Lemma blink_zero_restores_witness :
  blink 0 0.5 0.5 pin_controller = restore_original_state pin_controller ∧
  ∃ evs, out (state_of (blink 0 0.5 0.5 pin_controller)) =
         out pin_controller ++ RestoreCalled :: evs.
Proof.
  apply (blink_zero_restores pin_controller 0.5 0.5).
  right. vm_compute. reflexivity.
Defined.

(** C9. On a valid controller under ["pin"] whose captured original state is
    [False], [blink] with count 2 returns, leaving the line low, and adds
    to the trace two rounds of on, wait, off, wait and then the call of
    [restore_original_state] with its write: the levels written to the
    pin are [True; False; True; False; False], the last one written after
    the marker of the restoring call. *)
Theorem blink_twice_pin_writes s l on_time off_time :
  valid s →
  control_method (self s) = Some "pin" →
  backlight (self s) = Some l →
  original_state (self s) = Some false →
  accepted on_time →
  accepted off_time →
  let evs :=
    [ValueWrite l true; Sleep on_time; ValueWrite l false; Sleep off_time;
     ValueWrite l true; Sleep on_time; ValueWrite l false; Sleep off_time;
     RestoreCalled; ValueWrite l false;
     Print [Text "Restored original backlight state: "; Flag false]] in
  blink 2 on_time off_time s = Ok tt (driven s l false evs) ∧
  pin_writes evs = [true; false; true; false; false].
Proof.
  intros [_ Hp] Hm Hl Ho Hon Hoff evs. split; [|reflexivity].
  destruct (Hp Hm) as (l' & Hl' & Hdir).
  assert (l' = l) as -> by congruence.
  rewrite blink_active by auto.
  change (Z.to_nat 2) with 2%nat.
  erewrite bind_Ok by (eapply blink_loop_pin; eauto).
  erewrite restore_pin by (cbn [self]; eauto using direction_driven).
  now rewrite driven_driven.
Qed.

Lemma blink_twice_pin_writes_witness :
  let evs :=
    [ValueWrite "GPIO45" true; Sleep 0.5; ValueWrite "GPIO45" false; Sleep 0.25;
     ValueWrite "GPIO45" true; Sleep 0.5; ValueWrite "GPIO45" false; Sleep 0.25;
     RestoreCalled; ValueWrite "GPIO45" false;
     Print [Text "Restored original backlight state: "; Flag false]] in
  blink 2 0.5 0.25 pin_controller = Ok tt (driven pin_controller "GPIO45" false evs) ∧
  pin_writes evs = [true; false; true; false; false].
Proof.
  apply (blink_twice_pin_writes pin_controller "GPIO45" 0.5 0.25
           pin_controller_valid);
    vm_compute; reflexivity.
Defined.

(** C10. On a valid controller with an active control method, [blink]
    with a negative count is [blink] with count 0, whatever the
    durations: it returns without raising, the first thing it adds to the
    trace is the marker of the restoring call, so no on/off write
    precedes it, and it adds no sleep. *)
Theorem blink_negative_count s count on_time off_time :
  count < 0 →
  valid s →
  control_method (self s) = Some "brightness" ∨
  control_method (self s) = Some "pin" →
  blink count on_time off_time s = blink 0 on_time off_time s ∧
  ∃ s' evs, blink count on_time off_time s = Ok tt s' ∧
            out s' = out s ++ RestoreCalled :: evs ∧
            ∀ e, e ∈ evs → is_sleep e = false.
Proof.
  intros Hc Hv Hm.
  assert (H : blink count on_time off_time s = restore_original_state s).
  { rewrite blink_active by assumption.
    rewrite Z2Nat.nonpos by lia. reflexivity. }
  split.
  - rewrite H, blink_active by assumption. reflexivity.
  - rewrite H. now apply restore_returns.
Qed.

Lemma blink_negative_count_witness :
  blink (-3) (-1) (-1) brightness_controller =
  blink 0 (-1) (-1) brightness_controller ∧
  ∃ s' evs, blink (-3) (-1) (-1) brightness_controller = Ok tt s' ∧
            out s' = out brightness_controller ++ RestoreCalled :: evs ∧
            ∀ e, e ∈ evs → is_sleep e = false.
Proof.
  apply (blink_negative_count brightness_controller (-3) (-1) (-1));
    [lia | exact brightness_controller_valid | left; vm_compute; reflexivity].
Defined.

(** ** Properties of [restore_original_state] *)

(** C6. Calling [restore_original_state] twice in a row leaves the
    hardware (brightness and lines) and the controller as one call leaves
    them, from every state; and two calls return exactly when one does. *)
Theorem restore_idempotent s :
  let once := restore_original_state s in
  let twice := (restore_original_state;; restore_original_state) s in
  hw (state_of twice) = hw (state_of once) ∧
  self (state_of twice) = self (state_of once) ∧
  ((∃ s1, once = Ok tt s1) ↔ (∃ s2, twice = Ok tt s2)).
Proof.
  cbn zeta. unfold restore_original_state. run. unfold line_of.
  repeat (case_match; simplify_eq; cbn in *; rewrite ?lookup_insert_eq in *;
          cbn in *; simplify_eq);
    rewrite ?insert_insert_eq; repeat split; eauto;
    intros [? ?]; discriminate.
Qed.

(** ** The probing loop *)

Lemma first_present_Some h names name a :
  first_present h names = Some (name, a) →
  name ∈ names ∧ lookup_attr h name = a ∧ a ≠ Fails AttributeError.
Proof.
  induction names as [|n rest IH]; cbn; [discriminate|].
  destruct (lookup_attr h n) as [o|e] eqn:E.
  - intros [= <- <-]. repeat split; [apply list_elem_of_here | assumption | discriminate].
  - destruct e; try (intros [= <- <-];
      repeat split; [apply list_elem_of_here | assumption | discriminate]).
    intros H. destruct (IH H) as (Hin & Hl & Hne).
    repeat split; [now apply list_elem_of_further | assumption | assumption].
Qed.

Lemma first_present_skip h pre name post a :
  (∀ n, n ∈ pre → lookup_attr h n = Fails AttributeError) →
  lookup_attr h name = a →
  a ≠ Fails AttributeError →
  first_present h (pre ++ name :: post) = Some (name, a).
Proof.
  intros Hpre Ha Hne. induction pre as [|n pre IH]; cbn.
  - rewrite Ha. destruct a as [o|[]]; congruence.
  - rewrite (Hpre n) by apply list_elem_of_here.
    apply IH. intros n' Hn'. apply Hpre. now apply list_elem_of_further.
Qed.

(** The loop stops at the first candidate whose lookup does not raise
    [AttributeError] and does with it what [DigitalInOut] allows. *)
Lemma probe_pins_spec names s :
  probe_pins names s =
  match first_present (hw s) names with
  | None => Ok tt s
  | Some (name, Fails e) => Raise e s
  | Some (name, Holds (OPin l)) =>
      if in_use (line_of (hw s) l) then Raise ValueError s
      else Ok tt (claimed s name l)
  | Some (name, Holds _) => Raise TypeError s
  end.
Proof.
  induction names as [|n rest IH]; cbn [probe_pins first_present]; [reflexivity|].
  unfold hasattr_board, getattr_board, DigitalInOut. run.
  destruct (lookup_attr (hw s) n) as [o|e] eqn:E; cbn; rewrite ?E; cbn.
  - destruct o as [| |l]; cbn; try reflexivity.
    destruct (in_use (line_of (hw s) l)) eqn:U; cbn; [reflexivity|].
    unfold claimed, line_of. cbn. rewrite lookup_insert_eq. cbn.
    rewrite lookup_insert_eq. cbn. now rewrite insert_insert_eq.
  - destruct e; cbn; try reflexivity. apply IH.
Qed.

(** ** The constructor, path by path *)

#[local] Arguments probe_pins : simpl never.

(** The lookup of [board.DISPLAY] raises. *)
Lemma init_display_fails s e :
  lookup_attr (hw s) "DISPLAY" = Fails e →
  __init__ s =
  if caught e
  then Ok tt (mkState fresh (hw s) (out s ++ [Print [Text no_display_msg]]))
  else Raise e (mkState fresh (hw s) (out s)).
Proof.
  intros E. unfold __init__, try_except, detect, getattr_board. run.
  rewrite E. cbn. now destruct e.
Qed.

(** The display has brightness control. *)
Lemma init_brightness s v :
  lookup_attr (hw s) "DISPLAY" = Holds ODisplay →
  brightness (hw s) = Some v →
  __init__ s =
  Ok tt (mkState (mkTFTBlinky ODisplay None (Some "brightness") (Some v) None)
           (hw s) (out s ++ [Print [Text "Using display brightness control"]])).
Proof.
  intros E Hv. unfold __init__, try_except, detect, getattr_board. run.
  rewrite E. cbn. unfold has_brightness. rewrite Hv. cbn. now rewrite Hv.
Qed.

(** The display has none: the outcome is that of the probing loop. *)
Lemma init_probes s d :
  lookup_attr (hw s) "DISPLAY" = Holds d →
  has_brightness (hw s) d = false →
  __init__ s =
  match first_present (hw s) backlight_pins with
  | None =>
      Ok tt (mkState (self (found s d)) (hw s)
               (out s ++ [Print [Text no_method_msg]]))
  | Some (name, Holds (OPin l)) =>
      if in_use (line_of (hw s) l) then Raise ValueError (found s d)
      else Ok tt (pin_selected s d name l)
  | Some (name, Holds _) =>
      Ok tt (mkState (self (found s d)) (hw s)
               (out s ++ [Print [Text no_display_msg]]))
  | Some (name, Fails e) =>
      if caught e
      then Ok tt (mkState (self (found s d)) (hw s)
                    (out s ++ [Print [Text no_display_msg]]))
      else Raise e (found s d)
  end.
Proof.
  intros E Hb. remember (first_present (hw s) backlight_pins) as fp eqn:Efp.
  unfold __init__, try_except, detect, getattr_board. run.
  rewrite E. cbn. rewrite Hb. cbn.
  change (mkState (mkTFTBlinky d None None None None) (hw s) (out s))
    with (found s d).
  rewrite probe_pins_spec. cbn [hw found]. rewrite <- Efp.
  destruct fp as [[name [o|e]]|]; cbn.
  - destruct o as [| |l]; cbn; try reflexivity.
    now destruct (in_use (line_of (hw s) l)).
  - now destruct e.
  - reflexivity.
Qed.

Lemma has_brightness_true h d :
  has_brightness h d = true → d = ODisplay ∧ ∃ v, brightness h = Some v.
Proof.
  unfold has_brightness. destruct d; try discriminate.
  destruct (brightness h) as [v|]; [eauto | discriminate].
Qed.

(** Every way a construction can end. *)
Lemma init_cases s :
  (∃ v, brightness (hw s) = Some v ∧
        __init__ s =
        Ok tt (mkState (mkTFTBlinky ODisplay None (Some "brightness") (Some v) None)
                 (hw s) (out s ++ [Print [Text "Using display brightness control"]]))) ∨
  (∃ d name l, name ∈ backlight_pins ∧
               __init__ s = Ok tt (pin_selected s d name l)) ∨
  (∃ c msg, control_method c = None ∧
            (msg = no_display_msg ∨ msg = no_method_msg) ∧
            __init__ s = Ok tt (mkState c (hw s) (out s ++ [Print [Text msg]]))) ∨
  (∃ s', __init__ s = Raise ValueError s' ∧
         ((∃ n, n ∈ "DISPLAY" :: backlight_pins ∧
                lookup_attr (hw s) n = Fails ValueError) ∨
          (∃ n l, n ∈ backlight_pins ∧ lookup_attr (hw s) n = Holds (OPin l) ∧
                  in_use (line_of (hw s) l) = true))).
Proof.
  destruct (lookup_attr (hw s) "DISPLAY") as [d|e] eqn:E.
  - destruct (has_brightness (hw s) d) eqn:Hb.
    + apply has_brightness_true in Hb as [-> [v Hv]].
      left. exists v. split; [assumption|]. now apply init_brightness.
    + right. rewrite (init_probes s d E Hb).
      destruct (first_present (hw s) backlight_pins) as [[name a]|] eqn:F.
      * apply first_present_Some in F as (Hin & Hl & Hne).
        destruct a as [[| |l]|e].
        -- right; left. exists (self (found s d)), no_display_msg. eauto.
        -- right; left. exists (self (found s d)), no_display_msg. eauto.
        -- destruct (in_use (line_of (hw s) l)) eqn:U.
           ++ right; right. eexists. split; [reflexivity|].
              right. exists name, l. eauto.
           ++ left. exists d, name, l. eauto.
        -- destruct e; [congruence| |].
           ++ right; left. exists (self (found s d)), no_display_msg. eauto.
           ++ right; right. eexists. split; [reflexivity|].
              left. exists name. split; [now apply list_elem_of_further | assumption].
      * right; left. exists (self (found s d)), no_method_msg. eauto.
  - right; right. rewrite (init_display_fails s e E). destruct e; cbn.
    + left. exists fresh, no_display_msg. eauto.
    + left. exists fresh, no_display_msg. eauto.
    + right. eexists. split; [reflexivity|].
      left. exists "DISPLAY". split; [apply list_elem_of_here | assumption].
Qed.

(** The constructor establishes the invariant of the data model. *)
Lemma init_valid s s' : __init__ s = Ok tt s' → valid s'.
Proof.
  intros H.
  destruct (init_cases s)
    as [(v & Hv & E) | [(d & name & l & _ & E) | [(c & msg & Hc & _ & E) | (s1 & E & _)]]];
    rewrite E in H; simplify_eq; split; cbn; try discriminate; try congruence.
  - eauto.
  - intros _. exists l. split; [reflexivity|].
    unfold line_of. cbn. now rewrite lookup_insert_eq.
Qed.

(** ** Properties of the constructor *)

(** C7. When the display object has no brightness control, the
    candidates [DISPLAY_BACKLIGHT], [TFT_BACKLIGHT], [BACKLIGHT] are
    probed in that order: a candidate that holds a free pin is selected as
    soon as every name before it in the list is missing, and the
    controller ends under ["pin"] owning that line.  In particular, on a
    board where of the three only [BACKLIGHT] exists, [BACKLIGHT] is
    selected. *)
Theorem init_probes_in_order s d :
  lookup_attr (hw s) "DISPLAY" = Holds d →
  has_brightness (hw s) d = false →
  (∀ pre name post l,
     backlight_pins = pre ++ name :: post →
     (∀ n, n ∈ pre → lookup_attr (hw s) n = Fails AttributeError) →
     lookup_attr (hw s) name = Holds (OPin l) →
     in_use (line_of (hw s) l) = false →
     __init__ s = Ok tt (pin_selected s d name l) ∧
     control_method (self (pin_selected s d name l)) = Some "pin" ∧
     backlight (self (pin_selected s d name l)) = Some l) ∧
  (∀ l,
     lookup_attr (hw s) "DISPLAY_BACKLIGHT" = Fails AttributeError →
     lookup_attr (hw s) "TFT_BACKLIGHT" = Fails AttributeError →
     lookup_attr (hw s) "BACKLIGHT" = Holds (OPin l) →
     in_use (line_of (hw s) l) = false →
     __init__ s = Ok tt (pin_selected s d "BACKLIGHT" l)).
Proof.
  intros E Hb.
  assert (G : ∀ pre name post l,
     backlight_pins = pre ++ name :: post →
     (∀ n, n ∈ pre → lookup_attr (hw s) n = Fails AttributeError) →
     lookup_attr (hw s) name = Holds (OPin l) →
     in_use (line_of (hw s) l) = false →
     __init__ s = Ok tt (pin_selected s d name l)).
  { intros pre name post l Hsplit Hpre Hname Hfree.
    rewrite (init_probes s d E Hb), Hsplit.
    rewrite (first_present_skip _ pre name post (Holds (OPin l))) by (auto; discriminate).
    now rewrite Hfree. }
  split.
  - intros pre name post l Hsplit Hpre Hname Hfree.
    split; [eapply G; eauto | split; reflexivity].
  - intros l H1 H2 H3 Hfree.
    apply (G ["DISPLAY_BACKLIGHT"; "TFT_BACKLIGHT"] "BACKLIGHT" []); auto.
    intros n Hn. apply elem_of_cons in Hn as [->|Hn]; [assumption|].
    apply list_elem_of_singleton in Hn as ->. assumption.
Qed.

Lemma init_probes_in_order_witness :
  __init__ (boot board_only_BACKLIGHT) =
  Ok tt (pin_selected (boot board_only_BACKLIGHT) ONone "BACKLIGHT" "GPIO45").
Proof.
  refine (proj2 (init_probes_in_order (boot board_only_BACKLIGHT) ONone _ _)
            "GPIO45" _ _ _ _); vm_compute; reflexivity.
Defined.

(** C8, as stated, fails: on a board whose only candidate pin is already
    in use, [DigitalInOut] raises [ValueError], which the [except] clause
    does not name, and the constructor raises it to its caller. *)
Lemma init_raises_when_line_taken :
  __init__ (boot board_line_taken) =
  Raise ValueError (found (boot board_line_taken) ONone).
Proof. vm_compute. reflexivity. Qed.

(** C8, amended.  The constructor never raises [AttributeError] or
    [TypeError] to its caller: whatever the hardware, it returns or
    raises [ValueError], and it returns whenever no probed attribute of
    [board] fails with [ValueError] and no candidate pin is in use.  With
    a missing display, or a display lookup that raises one of the two
    absorbed classes, it returns an inert controller and has printed the
    diagnostic.  Whenever it returns, either it found a control method and
    said which, or [control_method] is [None] and exactly one diagnostic
    was printed. *)
Theorem init_absorbs s :
  (∀ e s', __init__ s = Raise e s' → e = ValueError) ∧
  (absorbable (hw s) → ∃ s', __init__ s = Ok tt s') ∧
  (∀ e, lookup_attr (hw s) "DISPLAY" = Fails e → caught e = true →
        __init__ s =
        Ok tt (mkState fresh (hw s) (out s ++ [Print [Text no_display_msg]]))) ∧
  (∀ s', __init__ s = Ok tt s' →
     (control_method (self s') = Some "brightness" ∧
      out s' = out s ++ [Print [Text "Using display brightness control"]]) ∨
     (control_method (self s') = Some "pin" ∧
      ∃ name, name ∈ backlight_pins ∧
              out s' = out s ++
                [Print [Text ("Using " +:+ name +:+ " pin for backlight control")]]) ∨
     (control_method (self s') = None ∧
      ∃ msg, (msg = no_display_msg ∨ msg = no_method_msg) ∧
             out s' = out s ++ [Print [Text msg]])).
Proof.
  pose proof (init_cases s) as C. repeat split.
  - intros e s' H.
    destruct C as [(v & _ & E) | [(d & name & l & _ & E) |
                  [(c & msg & _ & _ & E) | (s1 & E & _)]]];
      rewrite E in H; congruence.
  - intros [Hattr Hfree].
    destruct C as [(v & _ & E) | [(d & name & l & _ & E) |
                  [(c & msg & _ & _ & E) | (s1 & E & [(n & Hn & Hl) | (n & l & Hn & Hl & Hu)])]]];
      eauto.
    + now destruct (Hattr n Hn).
    + rewrite (Hfree n l Hn Hl) in Hu. discriminate.
  - intros e E He. rewrite (init_display_fails s e E), He. reflexivity.
  - intros s' H.
    destruct C as [(v & _ & E) | [(d & name & l & Hin & E) |
                  [(c & msg & Hc & Hmsg & E) | (s1 & E & _)]]];
      rewrite E in H; simplify_eq; cbn; eauto 8.
Qed.

Lemma init_absorbs_witness :
  ∃ s', __init__ (boot board_bare) = Ok tt s'.
Proof.
  refine (proj1 (proj2 (init_absorbs (boot board_bare))) _).
  split.
  - intros n _. vm_compute. discriminate.
  - intros n l _. vm_compute. discriminate.
Defined.

(** ** Runs of the script *)

(** X16. On any board whose display has brightness control, the script
    returns and the display ends with the brightness it had before. *)
Lemma main_keeps_brightness s v :
  lookup_attr (hw s) "DISPLAY" = Holds ODisplay →
  brightness (hw s) = Some v →
  ∃ s', main s = Ok tt s' ∧ brightness (hw s') = Some v.
Proof.
  intros E Hv. unfold main.
  erewrite bind_Ok by (eapply init_brightness; eauto).
  erewrite bind_Ok by (eapply blink_brightness; cbn; eauto; reflexivity).
  eexists. split; reflexivity.
Qed.

(** Without display the script only talks. *)
Example main_on_bare_board :
  main (boot board_bare) =
  Ok tt (mkState fresh board_bare
           [Print [Text "No built-in display detected."];
            Print [Text "No backlight control method available"];
            Print [Text "Blinking complete, display restored to original state"]]).
Proof. vm_compute. reflexivity. Qed.

(** With the backlight on a pin, the script switches it ten times and
    leaves it low. *)
Example main_on_pin_board :
  pin_writes (out (state_of (main (boot board_only_BACKLIGHT)))) =
  [true; false; true; false; true; false; true; false; true; false; false] ∧
  value (line_of (hw (state_of (main (boot board_only_BACKLIGHT)))) "GPIO45") = false.
Proof. split; vm_compute; reflexivity. Qed.

(** With the backlight line taken, the script dies in the constructor. *)
Example main_on_taken_line :
  main (boot board_line_taken) =
  Raise ValueError (found (boot board_line_taken) ONone).
Proof. vm_compute. reflexivity. Qed.

(** ** What the methods leave alone *)

Lemma method_is_neq m name : method_is m name = false → m ≠ Some name.
Proof. intros H ->. cbn in H. now rewrite String.eqb_refl in H. Qed.

Lemma bind_Raise {A B} (m : M A) (f : A → M B) s e s' :
  m s = Raise e s' → (m ≫= f) s = Raise e s'.
Proof. intros H. unfold mbind, M_bind. now rewrite H. Qed.

Lemma frame_refl s : frame s s.
Proof. unfold frame. naive_solver. Qed.

Lemma frame_trans s1 s2 s3 : frame s1 s2 → frame s2 s3 → frame s1 s3.
Proof.
  intros (Hs & Hb & Hi & Hn & Hd & Hl) (Hs' & Hb' & Hi' & Hn' & Hd' & Hl').
  rewrite Hs in Hn', Hl'.
  repeat split; try congruence.
  - intros H. now apply Hi, Hi'.
  - intros H. now apply Hi', Hi.
  - intros H. rewrite Hn', Hn; auto.
  - rewrite (proj1 (Hd' l)). apply Hd.
  - rewrite (proj2 (Hd' l)). apply Hd.
  - intros l H. rewrite Hl', Hl; auto.
Qed.

Lemma frame_out s evs : frame s (mkState (self s) (hw s) (out s ++ evs)).
Proof. unfold frame. cbn. naive_solver. Qed.

Lemma frame_bind {A B} (m : M A) (f : A → M B) :
  (∀ s, frame s (state_of (m s))) →
  (∀ a s, frame s (state_of (f a s))) →
  ∀ s, frame s (state_of ((m ≫= f) s)).
Proof.
  intros Hm Hf s. specialize (Hm s). unfold mbind, M_bind.
  destruct (m s) as [a s1|e s1]; cbn in *; [|assumption].
  eapply frame_trans; [exact Hm | apply Hf].
Qed.

Lemma write_brightness_frame s v :
  control_method (self s) = Some "brightness" →
  frame s (state_of (write_brightness (display (self s)) v s)).
Proof.
  intros Hm. run.
  destruct (display (self s)), (brightness (hw s)) as [v0|] eqn:E; cbn;
    try apply frame_refl.
  unfold frame, line_of. cbn. rewrite E.
  repeat split; eauto; congruence.
Qed.

Lemma write_value_frame s b :
  control_method (self s) = Some "pin" →
  frame s (state_of (write_value (backlight (self s)) b s)).
Proof.
  intros Hm. run.
  destruct (backlight (self s)) as [l|] eqn:El; cbn; [|apply frame_refl].
  destruct (direction (line_of (hw s) l)) eqn:Ed; cbn; [apply frame_refl|].
  unfold frame. cbn. repeat split; eauto.
  - unfold line_of at 1. cbn.
    destruct (decide (l = l0)) as [<-|Hne];
      [now rewrite lookup_insert_eq | now rewrite lookup_insert_ne].
  - unfold line_of at 1. cbn.
    destruct (decide (l = l0)) as [<-|Hne];
      [now rewrite lookup_insert_eq | now rewrite lookup_insert_ne].
  - intros l0 [H|H]; [congruence|].
    unfold line_of at 1. cbn. rewrite lookup_insert_ne by congruence. reflexivity.
Qed.

Lemma set_backlight_frame state s : frame s (state_of (set_backlight state s)).
Proof.
  unfold set_backlight.
  unfold get_self at 1. unfold mbind at 1, M_bind at 1.
  destruct (method_is (control_method (self s)) "brightness") eqn:Eb.
  - apply method_is_eq in Eb.
    pose proof (write_brightness_frame s (if state then 1 else 0)%float Eb) as H.
    unfold mbind, M_bind.
    destruct (write_brightness (display (self s)) _ s); exact H.
  - destruct (method_is (control_method (self s)) "pin") eqn:Ep.
    + apply method_is_eq in Ep.
      pose proof (write_value_frame s state Ep) as H.
      unfold mbind, M_bind.
      destruct (write_value (backlight (self s)) state s); exact H.
    + apply frame_refl.
Qed.

Lemma sleep_frame t s : frame s (state_of (sleep t s)).
Proof.
  unfold sleep. destruct (t <? 0)%float; [apply frame_refl | apply frame_out].
Qed.

Lemma restore_frame s : frame s (state_of (restore_original_state s)).
Proof.
  unfold restore_original_state.
  apply frame_bind; [intros s0; apply frame_out|]. clear s. intros _ s.
  unfold get_self at 1. unfold mbind at 1, M_bind at 1.
  destruct (method_is (control_method (self s)) "brightness") eqn:Eb.
  - apply method_is_eq in Eb.
    destruct (original_brightness (self s)) as [b|].
    + pose proof (write_brightness_frame s b Eb) as H.
      unfold mbind, M_bind.
      destruct (write_brightness (display (self s)) b s); cbn in *; [|exact H].
      eapply frame_trans; [exact H | apply frame_out].
    + rewrite Eb. cbn. destruct (original_state (self s)); apply frame_refl.
  - destruct (method_is (control_method (self s)) "pin") eqn:Ep.
    + apply method_is_eq in Ep.
      destruct (original_state (self s)) as [v|]; [|apply frame_refl].
      pose proof (write_value_frame s v Ep) as H.
      unfold mbind, M_bind.
      destruct (write_value (backlight (self s)) v s); cbn in *; [|exact H].
      eapply frame_trans; [exact H | apply frame_out].
    + apply frame_refl.
Qed.

Lemma blink_loop_frame n on_time off_time s :
  frame s (state_of (blink_loop n on_time off_time s)).
Proof.
  revert s. induction n as [|k IH]; intros s; [apply frame_refl|].
  cbn [blink_loop].
  apply frame_bind; [apply set_backlight_frame|]. intros _.
  apply frame_bind; [apply sleep_frame|]. intros _.
  apply frame_bind; [apply set_backlight_frame|]. intros _.
  apply frame_bind; [apply sleep_frame|]. intros _. exact IH.
Qed.

Lemma blink_frame count on_time off_time s :
  frame s (state_of (blink count on_time off_time s)).
Proof.
  unfold blink. unfold get_self at 1. unfold mbind at 1, M_bind at 1.
  destruct (negb (truthy (control_method (self s)))); [apply frame_out|].
  apply frame_bind; [apply blink_loop_frame | intros _; apply restore_frame].
Qed.

Lemma frame_valid s s' : frame s s' → valid s → valid s'.
Proof.
  intros (Hs & _ & Hi & _ & Hd & _) [Hb Hp]. unfold valid. rewrite Hs.
  split.
  - intros Hm. destruct (Hb Hm) as [Hdisp Hsome]. split; [assumption|].
    now apply Hi.
  - intros Hm. destruct (Hp Hm) as (l & Hl & Hdir). exists l.
    split; [assumption|]. now rewrite (proj2 (Hd l)).
Qed.

(** X1. None of the three methods changes a field of the controller or
    anything of the [board] module, whether it returns or raises.  The
    display's brightness changes only under ["brightness"], and the
    attribute never appears or disappears; of the digital lines only the
    level of the one the controller owns changes, and only under ["pin"]:
    ownership and direction of every line stay as they were. *)
Theorem methods_frame s :
  (∀ state, frame s (state_of (set_backlight state s))) ∧
  frame s (state_of (restore_original_state s)) ∧
  (∀ count on_time off_time, frame s (state_of (blink count on_time off_time s))).
Proof.
  split; [|split].
  - intros state. apply set_backlight_frame.
  - apply restore_frame.
  - intros count on_time off_time. apply blink_frame.
Qed.

(** X2. The invariant of the data model is kept by every method: from a
    valid state, [set_backlight], [restore_original_state] and [blink]
    end in a valid state, also when they raise. *)
Theorem methods_keep_valid s :
  valid s →
  (∀ state, valid (state_of (set_backlight state s))) ∧
  valid (state_of (restore_original_state s)) ∧
  (∀ count on_time off_time, valid (state_of (blink count on_time off_time s))).
Proof.
  intros Hv. split; [|split]; intros; eapply frame_valid; eauto.
  - apply set_backlight_frame.
  - apply restore_frame.
  - apply blink_frame.
Qed.

Lemma methods_keep_valid_witness :
  valid (state_of (blink 3 0.5 (-1) pin_controller)).
Proof.
  apply (proj2 (proj2 (methods_keep_valid pin_controller pin_controller_valid))).
Defined.

(** ** The trace of [blink], for every count *)

Lemma pin_writes_app evs evs' :
  pin_writes (evs ++ evs') = pin_writes evs ++ pin_writes evs'.
Proof.
  induction evs as [|e evs IH]; [reflexivity|].
  destruct e; cbn; now rewrite ?IH.
Qed.

Lemma sleeps_app evs evs' : sleeps (evs ++ evs') = sleeps evs ++ sleeps evs'.
Proof.
  induction evs as [|e evs IH]; [reflexivity|].
  destruct e; cbn; now rewrite ?IH.
Qed.

Lemma brightness_writes_app evs evs' :
  brightness_writes (evs ++ evs') = brightness_writes evs ++ brightness_writes evs'.
Proof.
  induction evs as [|e evs IH]; [reflexivity|].
  destruct e; cbn; now rewrite ?IH.
Qed.

Lemma rounds_pin n l on_time off_time :
  pin_writes (rounds n (pin_round l on_time off_time)) = alternate n true false ∧
  sleeps (rounds n (pin_round l on_time off_time)) = alternate n on_time off_time ∧
  brightness_writes (rounds n (pin_round l on_time off_time)) = [].
Proof.
  induction n as [|k (IH1 & IH2 & IH3)]; [easy|].
  cbn. now rewrite IH1, IH2, IH3.
Qed.

Lemma rounds_brightness n on_time off_time :
  brightness_writes (rounds n (brightness_round on_time off_time)) =
    alternate n 1%float 0%float ∧
  sleeps (rounds n (brightness_round on_time off_time)) = alternate n on_time off_time ∧
  pin_writes (rounds n (brightness_round on_time off_time)) = [].
Proof.
  induction n as [|k (IH1 & IH2 & IH3)]; [easy|].
  cbn. now rewrite IH1, IH2, IH3.
Qed.

(** Under pin control [blink] runs its rounds and restores: the exact
    final state. *)
Lemma blink_pin s l v count on_time off_time :
  control_method (self s) = Some "pin" →
  backlight (self s) = Some l →
  direction (line_of (hw s) l) = OUTPUT →
  original_state (self s) = Some v →
  accepted on_time →
  accepted off_time →
  blink count on_time off_time s =
  Ok tt (driven s l v
           (rounds (Z.to_nat count) (pin_round l on_time off_time) ++
            [RestoreCalled; ValueWrite l v;
             Print [Text "Restored original backlight state: "; Flag v]])).
Proof.
  intros Hm Hl Hd Ho Hon Hoff.
  rewrite blink_active by auto.
  destruct (Z.to_nat count) as [|k].
  - cbn [blink_loop rounds]. erewrite bind_Ok by reflexivity.
    now apply restore_pin.
  - erewrite bind_Ok by (eapply blink_loop_pin; eauto).
    erewrite restore_pin by (cbn [self]; eauto using direction_driven).
    now rewrite driven_driven.
Qed.

(** X3. On a valid controller under ["pin"] that captured the level [v],
    [blink] returns for every count and all accepted durations.  With
    [n] the length of [range(count)], it writes to the pin [n] times
    [True; False] and then [v], sleeps [n] times [on_time; off_time],
    never writes the display brightness, and the pin then reads [v]. *)
Theorem blink_pin_trace s l v count on_time off_time :
  valid s →
  control_method (self s) = Some "pin" →
  backlight (self s) = Some l →
  original_state (self s) = Some v →
  accepted on_time →
  accepted off_time →
  ∃ s' evs,
    blink count on_time off_time s = Ok tt s' ∧
    out s' = out s ++ evs ∧
    pin_writes evs = alternate (Z.to_nat count) true false ++ [v] ∧
    sleeps evs = alternate (Z.to_nat count) on_time off_time ∧
    brightness_writes evs = [] ∧
    get_value (backlight (self s')) s' = Ok v s'.
Proof.
  intros [_ Hp] Hm Hl Ho Hon Hoff.
  destruct (Hp Hm) as (l' & Hl' & Hdir).
  assert (l' = l) as -> by congruence.
  destruct (rounds_pin (Z.to_nat count) l on_time off_time) as (R1 & R2 & R3).
  eexists _, _. split; [eapply blink_pin; eauto|].
  split; [reflexivity|].
  rewrite pin_writes_app, sleeps_app, brightness_writes_app, R1, R2, R3.
  cbn. rewrite app_nil_r. repeat split.
  run. rewrite Hl. run. unfold line_of. cbn. now rewrite lookup_insert_eq.
Qed.

Lemma blink_pin_trace_witness :
  ∃ s' evs,
    blink 3 0.5 0.25 pin_controller = Ok tt s' ∧
    out s' = out pin_controller ++ evs ∧
    pin_writes evs = alternate (Z.to_nat 3) true false ++ [false] ∧
    sleeps evs = alternate (Z.to_nat 3) 0.5%float 0.25%float ∧
    brightness_writes evs = [] ∧
    get_value (backlight (self s')) s' = Ok false s'.
Proof.
  apply (blink_pin_trace pin_controller "GPIO45" false 3 0.5 0.25
           pin_controller_valid); vm_compute; reflexivity.
Defined.

(** X4. On a valid controller under ["brightness"] that captured the
    level [b0], [blink] returns for every count and all accepted
    durations.  With [n] the length of [range(count)], it writes to the
    display brightness [n] times [1.0; 0.0] and then [b0], sleeps [n]
    times [on_time; off_time], and writes no pin. *)
Theorem blink_brightness_trace s b0 count on_time off_time :
  valid s →
  control_method (self s) = Some "brightness" →
  original_brightness (self s) = Some b0 →
  accepted on_time →
  accepted off_time →
  ∃ s' evs,
    blink count on_time off_time s = Ok tt s' ∧
    out s' = out s ++ evs ∧
    brightness_writes evs =
      alternate (Z.to_nat count) 1%float 0%float ++ [b0] ∧
    sleeps evs = alternate (Z.to_nat count) on_time off_time ∧
    pin_writes evs = [].
Proof.
  intros [Hb _] Hm Ho Hon Hoff. destruct (Hb Hm) as [Hd [v0 Hv]].
  destruct (rounds_brightness (Z.to_nat count) on_time off_time) as (R1 & R2 & R3).
  eexists _, _. split; [eapply blink_brightness; eauto|].
  split; [reflexivity|].
  rewrite pin_writes_app, sleeps_app, brightness_writes_app, R1, R2, R3.
  cbn. now rewrite app_nil_r.
Qed.

Lemma blink_brightness_trace_witness :
  ∃ s' evs,
    blink 2 0.5 0 brightness_controller = Ok tt s' ∧
    out s' = out brightness_controller ++ evs ∧
    brightness_writes evs =
      alternate (Z.to_nat 2) 1%float 0%float ++ [0.75%float] ∧
    sleeps evs = alternate (Z.to_nat 2) 0.5%float 0%float ∧
    pin_writes evs = [].
Proof.
  apply (blink_brightness_trace brightness_controller 0.75 2 0.5 0
           brightness_controller_valid); vm_compute; reflexivity.
Defined.

(** ** [blink] with a duration [time.sleep] rejects *)

Lemma sleep_rejected t s : (t <? 0)%float = true → sleep t s = Raise ValueError s.
Proof. unfold sleep. intros ->. reflexivity. Qed.

Lemma positive_count count : 0 < count → ∃ k, Z.to_nat count = S k.
Proof. intros H. exists (Nat.pred (Z.to_nat count)). lia. Qed.

(** X5. Nothing in [blink] catches what [time.sleep] raises.  On a valid
    controller, with a count of at least 1 and a negative [on_time],
    [blink] raises [ValueError] from its first sleep: the backlight has
    just been switched on and stays on, and [restore_original_state] is
    not called. *)
Theorem blink_negative_on_time s count on_time off_time :
  valid s →
  0 < count →
  (on_time <? 0)%float = true →
  (control_method (self s) = Some "brightness" →
   blink count on_time off_time s =
   Raise ValueError (lit s 1 [BrightnessWrite 1])) ∧
  (∀ l, control_method (self s) = Some "pin" →
        backlight (self s) = Some l →
        blink count on_time off_time s =
        Raise ValueError (driven s l true [ValueWrite l true])).
Proof.
  intros [Hb Hp] Hc Hon. destruct (positive_count count Hc) as [k Hk].
  split.
  - intros Hm. destruct (Hb Hm) as [Hd [v0 Hv]].
    rewrite blink_active, Hk by auto. cbn [blink_loop].
    apply bind_Raise.
    erewrite bind_Ok by (eapply set_backlight_brightness; eauto).
    apply bind_Raise. now apply sleep_rejected.
  - intros l Hm Hl. destruct (Hp Hm) as (l' & Hl' & Hdir).
    assert (l' = l) as -> by congruence.
    rewrite blink_active, Hk by auto. cbn [blink_loop].
    apply bind_Raise.
    erewrite bind_Ok by (eapply set_backlight_pin; eauto).
    apply bind_Raise. now apply sleep_rejected.
Qed.

Lemma blink_negative_on_time_witness :
  blink 5 (-1) 0.5 brightness_controller =
  Raise ValueError (lit brightness_controller 1 [BrightnessWrite 1]).
Proof.
  apply (proj1 (blink_negative_on_time brightness_controller 5 (-1) 0.5
                  brightness_controller_valid ltac:(lia) eq_refl)).
  vm_compute. reflexivity.
Defined.

(** X6. With a count of at least 1, an accepted [on_time] and a negative
    [off_time], [blink] on a valid controller raises [ValueError] from
    its second sleep: the backlight has been switched on and off once,
    stays off, and [restore_original_state] is not called. *)
Theorem blink_negative_off_time s count on_time off_time :
  valid s →
  0 < count →
  accepted on_time →
  (off_time <? 0)%float = true →
  (control_method (self s) = Some "brightness" →
   blink count on_time off_time s =
   Raise ValueError
     (lit s 0 [BrightnessWrite 1; Sleep on_time; BrightnessWrite 0])) ∧
  (∀ l, control_method (self s) = Some "pin" →
        backlight (self s) = Some l →
        blink count on_time off_time s =
        Raise ValueError
          (driven s l false [ValueWrite l true; Sleep on_time; ValueWrite l false])).
Proof.
  intros [Hb Hp] Hc Hon Hoff. destruct (positive_count count Hc) as [k Hk].
  split.
  - intros Hm. destruct (Hb Hm) as [Hd [v0 Hv]].
    rewrite blink_active, Hk by auto. cbn [blink_loop].
    apply bind_Raise.
    erewrite bind_Ok by (eapply set_backlight_brightness; eauto).
    erewrite bind_Ok by (now apply sleep_accepted).
    erewrite bind_Ok by (eapply set_backlight_brightness; cbn; eauto).
    erewrite bind_Raise by (now apply sleep_rejected).
    f_equal. unfold lit. cbn. now rewrite <- !app_assoc.
  - intros l Hm Hl. destruct (Hp Hm) as (l' & Hl' & Hdir).
    assert (l' = l) as -> by congruence.
    rewrite blink_active, Hk by auto. cbn [blink_loop].
    apply bind_Raise.
    erewrite bind_Ok by (eapply set_backlight_pin; eauto).
    erewrite bind_Ok by (now apply sleep_accepted).
    erewrite bind_Ok
      by (eapply set_backlight_pin; cbn [self hw]; eauto using direction_driven).
    erewrite bind_Raise by (now apply sleep_rejected).
    f_equal. unfold driven, line_of. cbn. rewrite lookup_insert_eq. cbn.
    now rewrite insert_insert_eq, <- !app_assoc.
Qed.

Lemma blink_negative_off_time_witness :
  blink 5 0.5 (-1) pin_controller =
  Raise ValueError
    (driven pin_controller "GPIO45" false
       [ValueWrite "GPIO45" true; Sleep 0.5; ValueWrite "GPIO45" false]).
Proof.
  apply (proj2 (blink_negative_off_time pin_controller 5 0.5 (-1)
                  pin_controller_valid ltac:(lia) eq_refl eq_refl) "GPIO45");
    vm_compute; reflexivity.
Defined.

(** ** Composing [set_backlight] *)

(** X7. The last [set_backlight] wins: on a valid controller with an
    active control method, two calls in a row return and leave hardware
    and controller exactly as the second call alone would. *)
Theorem set_backlight_last_wins s first second :
  valid s →
  control_method (self s) = Some "brightness" ∨
  control_method (self s) = Some "pin" →
  ∃ s1 s2,
    set_backlight second s = Ok second s1 ∧
    (set_backlight first;; set_backlight second) s = Ok second s2 ∧
    hw s2 = hw s1 ∧ self s2 = self s1.
Proof.
  intros [Hb Hp] [Hm|Hm].
  - destruct (Hb Hm) as [Hd [v0 Hv]].
    eexists _, _. split; [eapply set_backlight_brightness; eauto|].
    erewrite bind_Ok by (eapply set_backlight_brightness; eauto).
    erewrite set_backlight_brightness by (cbn; eauto).
    rewrite lit_lit. repeat split.
  - destruct (Hp Hm) as (l & Hl & Hdir).
    eexists _, _. split; [eapply set_backlight_pin; eauto|].
    erewrite bind_Ok by (eapply set_backlight_pin; eauto).
    erewrite set_backlight_pin by (cbn [self]; eauto using direction_driven).
    rewrite driven_driven. repeat split.
Qed.

Lemma set_backlight_last_wins_witness :
  ∃ s1 s2,
    set_backlight false pin_controller = Ok false s1 ∧
    (set_backlight true;; set_backlight false) pin_controller = Ok false s2 ∧
    hw s2 = hw s1 ∧ self s2 = self s1.
Proof.
  apply (set_backlight_last_wins pin_controller true false pin_controller_valid).
  right. vm_compute. reflexivity.
Defined.

(** ** More on the constructor *)

Lemma lookup_attr_board h h' n :
  board h' = board h → lookup_attr h' n = lookup_attr h n.
Proof. unfold lookup_attr. now intros ->. Qed.

Lemma first_present_board h h' names :
  board h' = board h → first_present h' names = first_present h names.
Proof.
  intros Hb. induction names as [|n rest IH]; [reflexivity|].
  cbn. now rewrite (lookup_attr_board h h' n Hb), IH.
Qed.

Lemma first_present_None h names n :
  first_present h names = None → n ∈ names → lookup_attr h n = Fails AttributeError.
Proof.
  induction names as [|m rest IH]; cbn; intros H Hn; [inversion Hn|].
  destruct (lookup_attr h m) as [o|[]] eqn:E; try discriminate.
  apply elem_of_cons in Hn as [->|Hn]; [assumption | now apply IH].
Qed.

Lemma absent_first_present h names :
  (∀ n, n ∈ names → lookup_attr h n = Fails AttributeError) →
  first_present h names = None.
Proof.
  induction names as [|m rest IH]; intros H; [reflexivity|].
  cbn. rewrite (H m) by apply list_elem_of_here.
  apply IH. intros n Hn. apply H. now apply list_elem_of_further.
Qed.

(** Every way a construction can end, with the state it ends in: either
    the hardware is untouched and the controller is inert or under
    ["brightness"], or a line was taken, or [ValueError] escapes from an
    untouched state. *)
Lemma init_paths s :
  (∃ c line, __init__ s = Ok tt (mkState c (hw s) (out s ++ [Print line])) ∧
             backlight c = None ∧ original_state c = None ∧
             (control_method c = None ∧ original_brightness c = None ∨
              control_method c = Some "brightness" ∧ display c = ODisplay ∧
              lookup_attr (hw s) "DISPLAY" = Holds ODisplay ∧
              original_brightness c = brightness (hw s) ∧
              is_Some (brightness (hw s)))) ∨
  (∃ d name l, lookup_attr (hw s) "DISPLAY" = Holds d ∧
               has_brightness (hw s) d = false ∧
               first_present (hw s) backlight_pins = Some (name, Holds (OPin l)) ∧
               in_use (line_of (hw s) l) = false ∧
               __init__ s = Ok tt (pin_selected s d name l)) ∨
  (∃ c, __init__ s = Raise ValueError (mkState c (hw s) (out s))).
Proof.
  destruct (lookup_attr (hw s) "DISPLAY") as [d|e] eqn:E.
  - destruct (has_brightness (hw s) d) eqn:Hb.
    + apply has_brightness_true in Hb as [-> [v Hv]].
      left. eexists _, _. split; [eapply init_brightness; eassumption|].
      cbn. rewrite Hv. eauto 10.
    + rewrite (init_probes s d E Hb).
      destruct (first_present (hw s) backlight_pins) as [[name a]|] eqn:F.
      * destruct a as [[| |l]|e].
        -- left. eexists _, _. split; [reflexivity|]. cbn. eauto.
        -- left. eexists _, _. split; [reflexivity|]. cbn. eauto.
        -- destruct (in_use (line_of (hw s) l)) eqn:U.
           ++ right; right. eexists. reflexivity.
           ++ right; left. exists d, name, l. eauto.
        -- destruct e; cbn.
           ++ left. eexists _, _. split; [reflexivity|]. cbn. eauto.
           ++ left. eexists _, _. split; [reflexivity|]. cbn. eauto.
           ++ right; right. eexists. reflexivity.
      * left. eexists _, _. split; [reflexivity|]. cbn. eauto.
  - rewrite (init_display_fails s e E). destruct e; cbn.
    + left. eexists _, _. split; [reflexivity|]. cbn. eauto.
    + left. eexists _, _. split; [reflexivity|]. cbn. eauto.
    + right; right. eexists. reflexivity.
Qed.

(** X8. A construction that returns leaves a valid controller whose
    captured values match its control method: [original_brightness] is
    set exactly under ["brightness"], and [backlight] and
    [original_state] are set exactly under ["pin"]. *)
Theorem init_captures_what_it_controls s s' :
  __init__ s = Ok tt s' →
  valid s' ∧
  (is_Some (original_brightness (self s')) ↔
   control_method (self s') = Some "brightness") ∧
  (is_Some (backlight (self s')) ↔ control_method (self s') = Some "pin") ∧
  (is_Some (original_state (self s')) ↔ control_method (self s') = Some "pin").
Proof.
  intros H. split; [now apply init_valid in H|].
  destruct (init_paths s)
    as [(c & line & E & Hbl & Hos & [[Hm Hob] | (Hm & _ & _ & Hob & Hsome)])
       | [(d & name & l & _ & _ & _ & _ & E) | (c & E)]];
    rewrite E in H; simplify_eq; cbn.
  - rewrite Hm, Hob, Hbl, Hos. repeat split; intros H; try discriminate;
      now destruct H.
  - rewrite Hm, Hob, Hbl, Hos. repeat split; intros H; try discriminate;
      try assumption; now destruct H.
  - repeat split; intros H; try discriminate; eauto; now destruct H.
Qed.

Lemma init_captures_what_it_controls_witness :
  valid brightness_controller ∧
  (is_Some (original_brightness (self brightness_controller)) ↔
   control_method (self brightness_controller) = Some "brightness") ∧
  (is_Some (backlight (self brightness_controller)) ↔
   control_method (self brightness_controller) = Some "pin") ∧
  (is_Some (original_state (self brightness_controller)) ↔
   control_method (self brightness_controller) = Some "pin").
Proof.
  apply (init_captures_what_it_controls (boot board_with_brightness)).
  vm_compute. reflexivity.
Defined.

(** X9. Brightness control has priority over every pin: when the display
    has a brightness attribute, the constructor returns under
    ["brightness"] with the current level captured, takes no line even if
    the board has candidate pins, and leaves the hardware untouched. *)
Theorem init_prefers_brightness s v :
  lookup_attr (hw s) "DISPLAY" = Holds ODisplay →
  brightness (hw s) = Some v →
  ∃ s', __init__ s = Ok tt s' ∧
        control_method (self s') = Some "brightness" ∧
        original_brightness (self s') = Some v ∧
        backlight (self s') = None ∧
        hw s' = hw s.
Proof.
  intros E Hv. eexists. split; [eapply init_brightness; eassumption|].
  repeat split.
Qed.

Lemma init_prefers_brightness_witness :
  ∃ s', __init__ (boot board_brightness_and_pin) = Ok tt s' ∧
        control_method (self s') = Some "brightness" ∧
        original_brightness (self s') = Some 0.75%float ∧
        backlight (self s') = None ∧
        hw s' = hw (boot board_brightness_and_pin).
Proof.
  apply (init_prefers_brightness (boot board_brightness_and_pin) 0.75);
    vm_compute; reflexivity.
Defined.

(** X10. The probing loop gives up at the first candidate the board has,
    whatever it is.  When that candidate is bound to something that is not
    a pin, [DigitalInOut] raises [TypeError], the [except] clause absorbs
    it, and the constructor returns an inert controller with the
    diagnostic for a missing display: candidates later in the list are not
    tried, and the hardware is untouched. *)
Theorem init_candidate_not_a_pin s d pre name post o :
  lookup_attr (hw s) "DISPLAY" = Holds d →
  has_brightness (hw s) d = false →
  backlight_pins = pre ++ name :: post →
  (∀ n, n ∈ pre → lookup_attr (hw s) n = Fails AttributeError) →
  lookup_attr (hw s) name = Holds o →
  (∀ l, o ≠ OPin l) →
  __init__ s =
  Ok tt (mkState (mkTFTBlinky d None None None None) (hw s)
           (out s ++ [Print [Text no_display_msg]])).
Proof.
  intros E Hb Hsplit Hpre Hname Ho.
  rewrite (init_probes s d E Hb), Hsplit.
  rewrite (first_present_skip _ pre name post (Holds o)) by (auto; discriminate).
  destruct o as [| |l]; [reflexivity | reflexivity | now destruct (Ho l)].
Qed.

Lemma init_candidate_not_a_pin_witness :
  __init__ (boot board_odd_candidate) =
  Ok tt (mkState (mkTFTBlinky ONone None None None None) board_odd_candidate
           ([] ++ [Print [Text no_display_msg]])).
Proof.
  apply (init_candidate_not_a_pin (boot board_odd_candidate) ONone
           [] "DISPLAY_BACKLIGHT" ["TFT_BACKLIGHT"; "BACKLIGHT"] ONone);
    try (vm_compute; reflexivity).
  - intros n Hn. inversion Hn.
  - intros l. discriminate.
Defined.

(** X11. When the board has a display object without brightness
    attribute and none of the three candidate names, the constructor
    returns an inert controller that keeps the display object, prints the
    diagnostic for a missing control method, and leaves the hardware
    untouched. *)
Theorem init_no_candidate s d :
  lookup_attr (hw s) "DISPLAY" = Holds d →
  has_brightness (hw s) d = false →
  (∀ n, n ∈ backlight_pins → lookup_attr (hw s) n = Fails AttributeError) →
  __init__ s =
  Ok tt (mkState (mkTFTBlinky d None None None None) (hw s)
           (out s ++ [Print [Text no_method_msg]])).
Proof.
  intros E Hb Habs.
  rewrite (init_probes s d E Hb).
  now rewrite (absent_first_present _ _ Habs).
Qed.

Lemma init_no_candidate_witness :
  __init__ (boot board_no_candidate) =
  Ok tt (mkState (mkTFTBlinky ONone None None None None) board_no_candidate
           ([] ++ [Print [Text no_method_msg]])).
Proof.
  apply (init_no_candidate (boot board_no_candidate) ONone);
    try (vm_compute; reflexivity).
  intros n Hn. vm_compute in Hn.
  repeat (apply elem_of_cons in Hn as [->|Hn]; [vm_compute; reflexivity|]).
  inversion Hn.
Defined.

(** X12. What a construction does to the outside, whether it returns or
    raises: it never changes [board] or the display's brightness; it
    either leaves every line as it was, or ends under ["pin"] owning one
    line, now an output in use, with every other line as it was; and it
    adds at most one printed line to the trace, so no write and no
    sleep. *)
Theorem init_frame s :
  let s' := state_of (__init__ s) in
  board (hw s') = board (hw s) ∧
  brightness (hw s') = brightness (hw s) ∧
  (lines (hw s') = lines (hw s) ∨
   ∃ l, control_method (self s') = Some "pin" ∧
        backlight (self s') = Some l ∧
        in_use (line_of (hw s') l) = true ∧
        direction (line_of (hw s') l) = OUTPUT ∧
        ∀ l', l' ≠ l → line_of (hw s') l' = line_of (hw s) l') ∧
  (out s' = out s ∨ ∃ line, out s' = out s ++ [Print line]).
Proof.
  cbn zeta.
  destruct (init_paths s)
    as [(c & line & E & _) | [(d & name & l & _ & _ & _ & _ & E) | (c & E)]];
    rewrite E; cbn; repeat split; eauto.
  right. exists l. unfold line_of. cbn. rewrite lookup_insert_eq.
  repeat split. intros l' Hne. now rewrite lookup_insert_ne by congruence.
Qed.

(** The outcome of a construction depends on the hardware only: started
    on the same hardware with other fields and another trace, it ends the
    same way, with the same fields, hardware and added lines. *)
Lemma init_relocate s t :
  hw t = hw s →
  match __init__ s with
  | Ok _ s' =>
      ∃ evs, out s' = out s ++ evs ∧
             __init__ t = Ok tt (mkState (self s') (hw s') (out t ++ evs))
  | Raise e s' =>
      out s' = out s ∧ __init__ t = Raise e (mkState (self s') (hw s') (out t))
  end.
Proof.
  destruct t as [ct ht ot]. cbn. intros ->.
  destruct (lookup_attr (hw s) "DISPLAY") as [d|e] eqn:E.
  - destruct (has_brightness (hw s) d) eqn:Hb.
    + apply has_brightness_true in Hb as [-> [v Hv]].
      rewrite (init_brightness s v E Hv).
      rewrite (init_brightness (mkState ct (hw s) ot) v E Hv).
      eexists. split; reflexivity.
    + rewrite (init_probes s d E Hb).
      rewrite (init_probes (mkState ct (hw s) ot) d E Hb). cbn [hw].
      destruct (first_present (hw s) backlight_pins) as [[name [o|e]]|].
      * destruct o as [| |l]; try (eexists; split; reflexivity).
        destruct (in_use (line_of (hw s) l)); [split; reflexivity|].
        eexists. split; reflexivity.
      * destruct e; cbn; [eexists | eexists | idtac]; split; reflexivity.
      * eexists. split; reflexivity.
  - rewrite (init_display_fails s e E).
    rewrite (init_display_fails (mkState ct (hw s) ot) e E).
    destruct e; cbn; [eexists | eexists | idtac]; split; reflexivity.
Qed.

(** X13. Constructing a second controller.  After a construction that
    returned under ["pin"], a second construction raises [ValueError],
    because the first object still owns the line.  After any other
    construction that returned, a second one returns too, with the same
    controller fields and the same hardware. *)
Theorem init_twice s s1 :
  __init__ s = Ok tt s1 →
  (control_method (self s1) = Some "pin" →
   ∃ s2, __init__ s1 = Raise ValueError s2) ∧
  (control_method (self s1) ≠ Some "pin" →
   ∃ s2, __init__ s1 = Ok tt s2 ∧ self s2 = self s1 ∧ hw s2 = hw s1).
Proof.
  intros H.
  destruct (init_paths s)
    as [(c & line & E & Hbl & Hos & Hc)
       | [(d & name & l & Ed & Hb & F & U & E) | (c & E)]];
    rewrite E in H; simplify_eq.
  - split; [intros Hm; cbn in Hm; destruct Hc as [[? _]|[? _]]; congruence|].
    intros _.
    pose proof (init_relocate s (mkState c (hw s) (out s ++ [Print line])) eq_refl) as R.
    rewrite E in R. destruct R as (evs & _ & R).
    eexists. split; [exact R|]. split; reflexivity.
  - split; [|intros Hm; now destruct Hm].
    intros _. eexists.
    assert (Hboard : board (hw (pin_selected s d name l)) = board (hw s)) by reflexivity.
    rewrite (init_probes (pin_selected s d name l) d).
    + rewrite (first_present_board _ _ _ Hboard), F.
      unfold line_of at 1. cbn. rewrite lookup_insert_eq. cbn. reflexivity.
    + now rewrite (lookup_attr_board _ _ _ Hboard).
    + exact Hb.
Qed.

Lemma init_twice_witness :
  ∃ s2, __init__ pin_controller = Raise ValueError s2.
Proof.
  apply (proj1 (init_twice (boot board_only_BACKLIGHT) pin_controller
                  ltac:(vm_compute; reflexivity))).
  vm_compute. reflexivity.
Defined.

(** ** Construction followed by [blink] *)

Lemma main_keeps_brightness_witness :
  ∃ s', main (boot board_with_brightness) = Ok tt s' ∧
        brightness (hw s') = Some 0.75%float.
Proof.
  apply (main_keeps_brightness (boot board_with_brightness) 0.75);
    vm_compute; reflexivity.
Defined.

(** On whatever the constructor returned, [blink] returns and puts the
    hardware back. *)
Lemma init_blink s s1 count on_time off_time :
  __init__ s = Ok tt s1 →
  accepted on_time →
  accepted off_time →
  ∃ s2 evs, blink count on_time off_time s1 = Ok tt s2 ∧
            hw s2 = hw s1 ∧ self s2 = self s1 ∧ out s2 = out s1 ++ evs.
Proof.
  intros H Hon Hoff.
  destruct (init_paths s)
    as [(c & line & E & Hbl & Hos & [[Hm Hob] | (Hm & Hd & _ & Hob & [v Hv])])
       | [(d & name & l & _ & _ & _ & _ & E) | (c & E)]];
    rewrite E in H; simplify_eq.
  - eexists _, _.
    split; [unfold blink; run; rewrite Hm; reflexivity | repeat split].
  - eexists _, _. split; [eapply (blink_brightness _ v v); cbn; eauto; congruence|].
    repeat split. unfold lit. cbn.
    destruct (hw s) as [bd br ls]. cbn in *. now rewrite Hv.
  - assert (Hdir : direction (line_of (hw (pin_selected s d name l)) l) = OUTPUT).
    { unfold line_of. cbn. now rewrite lookup_insert_eq. }
    eexists _, _. split; [eapply (blink_pin _ l false); eauto; reflexivity|].
    repeat split. unfold driven, line_of. cbn. rewrite lookup_insert_eq. cbn.
    now rewrite insert_insert_eq.
Qed.

(** X14. After a construction that returned, [blink] returns for every
    count and all accepted durations, whatever was detected, and leaves
    the hardware and the controller exactly as the construction left
    them. *)
Theorem blink_after_init_restores_hardware s s1 count on_time off_time :
  __init__ s = Ok tt s1 →
  accepted on_time →
  accepted off_time →
  ∃ s2, blink count on_time off_time s1 = Ok tt s2 ∧
        hw s2 = hw s1 ∧ self s2 = self s1.
Proof.
  intros H Hon Hoff.
  destruct (init_blink s s1 count on_time off_time H Hon Hoff)
    as (s2 & evs & Hb & Hh & Hs & _).
  eauto.
Qed.

Lemma blink_after_init_restores_hardware_witness :
  ∃ s2, blink 4 0.5 0.5 pin_controller = Ok tt s2 ∧
        hw s2 = hw pin_controller ∧ self s2 = self pin_controller.
Proof.
  apply (blink_after_init_restores_hardware (boot board_only_BACKLIGHT)
           pin_controller 4 0.5 0.5); vm_compute; reflexivity.
Defined.

(** ** The script *)

(** X15. The script fails only in the constructor: on every board,
    either the constructor raises [ValueError] and so does the script, or
    the script returns, having left the hardware as the constructor left
    it, and the last line it printed reports completion. *)
Theorem main_outcome s :
  (∃ s', __init__ s = Raise ValueError s' ∧ main s = Raise ValueError s') ∨
  (∃ s1 s2 evs,
     __init__ s = Ok tt s1 ∧ main s = Ok tt s2 ∧
     hw s2 = hw s1 ∧ self s2 = self s1 ∧
     out s2 = out s1 ++ evs ++
       [Print [Text "Blinking complete, display restored to original state"]]).
Proof.
  unfold main. destruct (__init__ s) as [[] s1|e s1] eqn:E.
  - right.
    destruct (init_blink s s1 5 0.5 0.5 E eq_refl eq_refl)
      as (s2 & evs & Hb & Hh & Hs & Ho).
    exists s1, (mkState (self s2) (hw s2)
                  (out s2 ++ [Print [Text "Blinking complete, display restored to original state"]])), evs.
    split; [reflexivity|].
    split; [erewrite bind_Ok by exact E; erewrite bind_Ok by exact Hb; reflexivity|].
    cbn. rewrite Ho, <- app_assoc. auto.
  - left. exists s1.
    assert (e = ValueError) as ->.
    { destruct (init_paths s) as [(c & line & E' & _) | [(d & name & l & _ & _ & _ & _ & E') | (c & E')]];
        congruence. }
    split; [reflexivity|]. now apply bind_Raise.
Qed.

(** X17. Without display the script still reports that the display was
    restored: when the lookup of [board.DISPLAY] raises one of the two
    absorbed classes, the script returns having printed three lines, the
    two diagnostics and the report of completion, and has touched neither
    the hardware nor slept. *)
Theorem main_without_display s e :
  lookup_attr (hw s) "DISPLAY" = Fails e →
  caught e = true →
  main s =
  Ok tt (mkState fresh (hw s)
           (out s ++
            [Print [Text "No built-in display detected."];
             Print [Text "No backlight control method available"];
             Print [Text "Blinking complete, display restored to original state"]])).
Proof.
  intros E He. unfold main.
  erewrite bind_Ok by (rewrite (init_display_fails s e E), He; reflexivity).
  unfold blink. run. now rewrite <- !app_assoc.
Qed.

Lemma main_without_display_witness :
  main (boot board_bare) =
  Ok tt (mkState fresh (hw (boot board_bare))
           (out (boot board_bare) ++
            [Print [Text "No built-in display detected."];
             Print [Text "No backlight control method available"];
             Print [Text "Blinking complete, display restored to original state"]])).
Proof.
  apply (main_without_display (boot board_bare) AttributeError);
    vm_compute; reflexivity.
Defined.
